(** * Provably-fair round verifier (anu.py)

    A shallow embedding of the verifier script: the SHA-256 commitment,
    the HMAC-SHA256 roll, [verify_round], [main], and the two report
    scripts that follow [main] in the same file.

    Representation choices.
    - A Python [str] is a [string] holding the bytes of its UTF-8
      encoding, so [s.encode('utf-8')] reads those bytes off and
      concatenation of strings is concatenation of encodings.  A [str]
      with a lone surrogate has no UTF-8 encoding and no counterpart in
      that representation; [Str] and [Unicode] give the encoder and the
      commitment on code points, where such a string exists and
      [encode] raises on it.
    - A Python [bytes] object is a [list byte].
    - Python integers are [Z]; SHA-256 words are [Z] with the reduction
      modulo 2^32 written out.
    - [hashlib.sha256] and [hmac.new] are library code: they are
      modelled after FIPS 180-4 and RFC 2104 and checked against
      published test vectors below.
    - [roll_from_seeds] carries the float [roll100 / 100.0] as the
      exact rational [roll100 / 100]; [roll_from_seeds_double] returns
      the IEEE double itself, and the two are compared for every value
      a roll can take. *)

From Stdlib Require Import ZArith List String Ascii Bool Lia QArith Qabs Qround.
From Stdlib.Strings Require Import Byte.
From Stdlib Require Import DecimalString.
From Stdlib Require Floats Uint63 DecimalZ DecimalPos.
Import ListNotations.

Local Open Scope Z_scope.

(** ** Bytes *)

Module Bytes.

Definition to_Z (b : byte) : Z := Z.of_N (Byte.to_N b).

Definition of_Z (z : Z) : byte :=
  match Byte.of_N (Z.to_N (z mod 256)) with
  | Some b => b
  | None => x00
  end.

(** [s.encode('utf-8')] on a [str] given by its UTF-8 bytes; [Str.encode]
    is the encoder on code points. *)
Definition encode_utf8 (s : string) : list byte := list_byte_of_string s.

(** [int.from_bytes(bs, byteorder='big')] *)
Definition int_from_bytes_big (bs : list byte) : Z :=
  fold_left (fun acc b => acc * 256 + to_Z b) bs 0.

(** The [n]-byte big-endian rendering of [z], most significant first. *)
Fixpoint be_bytes (n : nat) (z : Z) : list byte :=
  match n with
  | O => []
  | S n' => of_Z (Z.shiftr z (8 * Z.of_nat n')) :: be_bytes n' z
  end.

End Bytes.

(** ** SHA-256 (FIPS 180-4), the function behind [hashlib.sha256] *)

Module SHA256.

Definition w32 : Z := 2 ^ 32.

Definition add32 (x y : Z) : Z := (x + y) mod w32.

Definition rotr (n x : Z) : Z :=
  Z.lor (Z.shiftr x n) (Z.shiftl x (32 - n) mod w32).

Definition Ch (x y z : Z) : Z :=
  Z.lxor (Z.land x y) (Z.land (Z.lxor x (w32 - 1)) z).

Definition Maj (x y z : Z) : Z :=
  Z.lxor (Z.lxor (Z.land x y) (Z.land x z)) (Z.land y z).

Definition Sigma0 (x : Z) : Z := Z.lxor (Z.lxor (rotr 2 x) (rotr 13 x)) (rotr 22 x).
Definition Sigma1 (x : Z) : Z := Z.lxor (Z.lxor (rotr 6 x) (rotr 11 x)) (rotr 25 x).
Definition sigma0 (x : Z) : Z := Z.lxor (Z.lxor (rotr 7 x) (rotr 18 x)) (Z.shiftr x 3).
Definition sigma1 (x : Z) : Z := Z.lxor (Z.lxor (rotr 17 x) (rotr 19 x)) (Z.shiftr x 10).

(** The constants of FIPS 180-4, sections 4.2.2 and 5.3.3, from their
    definition: the first 32 bits of the fractional parts of the cube
    roots (for [K]) and of the square roots (for [H0]) of the first
    primes. *)
Definition is_prime (n : Z) : bool :=
  (1 <? n) && forallb (fun d => negb (n mod d =? 0)) (map Z.of_nat (seq 2 (Z.to_nat n - 2))).

Definition primes : list Z := filter is_prime (map Z.of_nat (seq 2 310)).

(** Integer cube root below 2^[bits], one binary digit at a time. *)
Fixpoint cube_root (bits : nat) (n r : Z) : Z :=
  match bits with
  | O => r
  | S b =>
      let c := r + 2 ^ Z.of_nat b in
      cube_root b n (if c * c * c <=? n then c else r)
  end.

Definition frac_cube_root (p : Z) : Z := cube_root 36 (p * 2 ^ 96) 0 mod w32.
Definition frac_square_root (p : Z) : Z := Z.sqrt (p * 2 ^ 64) mod w32.

Definition K : list Z := Eval vm_compute in map frac_cube_root primes.

(** The eight working variables [a .. h]. *)
Record state : Set := mkState {
  sa : Z; sb : Z; sc : Z; sd : Z; se : Z; sf : Z; sg : Z; sh : Z
}.

Definition H0 : state :=
  Eval vm_compute in
    mkState (frac_square_root 2) (frac_square_root 3) (frac_square_root 5)
            (frac_square_root 7) (frac_square_root 11) (frac_square_root 13)
            (frac_square_root 17) (frac_square_root 19).

(** Padding: a one bit, zero bits up to 56 modulo 64 bytes, then the
    message length in bits as a 64-bit big-endian integer. *)
Definition pad (msg : list byte) : list byte :=
  let len := Z.of_nat (List.length msg) in
  let zeros := Z.to_nat ((55 - len) mod 64) in
  msg ++ [x80] ++ repeat x00 zeros ++ Bytes.be_bytes 8 ((8 * len) mod 2 ^ 64).

(** The sixteen big-endian words of a 64-byte block. *)
Fixpoint block_words (n : nat) (bs : list byte) : list Z :=
  match n with
  | O => []
  | S n' => Bytes.int_from_bytes_big (firstn 4 bs) :: block_words n' (skipn 4 bs)
  end.

(** Message schedule, kept most recent word first. *)
Fixpoint schedule_rev (n : nat) (ws : list Z) : list Z :=
  match n with
  | O => ws
  | S n' =>
      let wt := add32 (add32 (add32 (sigma1 (nth 1 ws 0)) (nth 6 ws 0))
                             (sigma0 (nth 14 ws 0)))
                      (nth 15 ws 0) in
      schedule_rev n' (wt :: ws)
  end.

Definition schedule (blk : list byte) : list Z :=
  rev (schedule_rev 48 (rev (block_words 16 blk))).

Definition round (s : state) (kw : Z * Z) : state :=
  let '(k, w) := kw in
  let t1 := add32 (add32 (add32 (add32 (sh s) (Sigma1 (se s))) (Ch (se s) (sf s) (sg s))) k) w in
  let t2 := add32 (Sigma0 (sa s)) (Maj (sa s) (sb s) (sc s)) in
  mkState (add32 t1 t2) (sa s) (sb s) (sc s) (add32 (sd s) t1) (se s) (sf s) (sg s).

Definition compress (h : state) (blk : list byte) : state :=
  let s := fold_left round (combine K (schedule blk)) h in
  mkState (add32 (sa h) (sa s)) (add32 (sb h) (sb s)) (add32 (sc h) (sc s))
          (add32 (sd h) (sd s)) (add32 (se h) (se s)) (add32 (sf h) (sf s))
          (add32 (sg h) (sg s)) (add32 (sh h) (sh s)).

Fixpoint hash_blocks (n : nat) (h : state) (bs : list byte) : state :=
  match n with
  | O => h
  | S n' => hash_blocks n' (compress h (firstn 64 bs)) (skipn 64 bs)
  end.

Definition state_bytes (s : state) : list byte :=
  Bytes.be_bytes 4 (sa s) ++ Bytes.be_bytes 4 (sb s) ++
  Bytes.be_bytes 4 (sc s) ++ Bytes.be_bytes 4 (sd s) ++
  Bytes.be_bytes 4 (se s) ++ Bytes.be_bytes 4 (sf s) ++
  Bytes.be_bytes 4 (sg s) ++ Bytes.be_bytes 4 (sh s).

(** [hashlib.sha256(msg).digest()] *)
Definition digest (msg : list byte) : list byte :=
  let p := pad msg in
  state_bytes (hash_blocks (Nat.div (List.length p) 64) H0 p).

End SHA256.

(** ** HMAC (RFC 2104) over SHA-256, the function behind
       [hmac.new(key, msg, hashlib.sha256)] *)

Module HMAC.

Definition block_size : nat := 64.

Definition xor_pad (c : Z) (key : list byte) : list byte :=
  map (fun b => Bytes.of_Z (Z.lxor (Bytes.to_Z b) c)) key.

(** A key longer than one block is hashed first; the key is then
    zero-filled to the block size. *)
Definition block_key (key : list byte) : list byte :=
  let k := if Nat.ltb block_size (List.length key) then SHA256.digest key else key in
  k ++ repeat x00 (block_size - List.length k).

Definition digest (key msg : list byte) : list byte :=
  let k := block_key key in
  SHA256.digest (xor_pad 0x5c k ++ SHA256.digest (xor_pad 0x36 k ++ msg)).

End HMAC.

(** ** Hexadecimal text: [hexdigest] and [binascii.unhexlify] *)

Module Hex.

Definition digits : string := "0123456789abcdef".

Definition hex_digit (n : Z) : ascii :=
  match String.get (Z.to_nat n) digits with
  | Some c => c
  | None => "0"%char
  end.

Definition hex_of_byte (b : byte) : string :=
  String (hex_digit (Bytes.to_Z b / 16))
         (String (hex_digit (Bytes.to_Z b mod 16)) EmptyString).

(** [bytes.hex()], which is what [hexdigest] applies to the digest. *)
Fixpoint hexlify (bs : list byte) : string :=
  match bs with
  | [] => EmptyString
  | b :: rest => hex_of_byte b ++ hexlify rest
  end.

(** Value of one hexadecimal character; both cases are accepted. *)
Definition unhex_digit (c : ascii) : option Z :=
  let n := Z.of_nat (nat_of_ascii c) in
  if (48 <=? n) && (n <=? 57) then Some (n - 48)
  else if (97 <=? n) && (n <=? 102) then Some (n - 87)
  else if (65 <=? n) && (n <=? 70) then Some (n - 55)
  else None.

(** [binascii.unhexlify]: fails on an odd number of characters or on a
    character that is not a hexadecimal digit. *)
Fixpoint unhexlify (s : string) : option (list byte) :=
  match s with
  | EmptyString => Some []
  | String _ EmptyString => None
  | String c1 (String c2 rest) =>
      match unhex_digit c1, unhex_digit c2, unhexlify rest with
      | Some hi, Some lo, Some bs => Some (Bytes.of_Z (16 * hi + lo) :: bs)
      | _, _, _ => None
      end
  end.

Definition is_lower_hex (c : ascii) : bool :=
  let n := Z.of_nat (nat_of_ascii c) in
  ((48 <=? n) && (n <=? 57)) || ((97 <=? n) && (n <=? 102)).

Fixpoint all_chars (p : ascii -> bool) (s : string) : bool :=
  match s with
  | EmptyString => true
  | String c rest => p c && all_chars p rest
  end.

End Hex.

(** ** Results of calls that may raise *)

Inductive exn : Set :=
| BinasciiError
| SystemExit (code : Z)
| UnicodeEncodeError
| FpdfError.

Inductive result (A : Type) : Type :=
| Ok (a : A)
| Raise (e : exn).

Arguments Ok {A} a.
Arguments Raise {A} e.

(** [str(n)] for an integer: decimal digits, with a leading minus sign
    for a negative number. *)
Definition str_int (n : Z) : string := NilZero.string_of_int (Z.to_int n).

(** ** The verifier's pure functions *)

Definition CLIENT_SEED : string := "pxfv6pdY0X".
Definition PUBLISHED_COMMITMENT : string :=
  "6691b3a8b89b96292a9f930343af4690dd4892db29d5af87ac6f6f4bce346fcf".

Definition sha256_hex (s : string) : string :=
  Hex.hexlify (SHA256.digest (Bytes.encode_utf8 s)).

Definition hmac_sha256_hex (key message : string) : string :=
  Hex.hexlify (HMAC.digest (Bytes.encode_utf8 key) (Bytes.encode_utf8 message)).

(** The quotient of line 54 is carried here as an exact rational;
    [roll_from_seeds_double] below returns the double. *)
Definition roll_from_seeds (server_seed client_seed : string) (nonce : Z) : result Q :=
  let message := (client_seed ++ ":" ++ str_int nonce)%string in
  let hmac_hex := hmac_sha256_hex server_seed message in
  match Hex.unhexlify hmac_hex with
  | None => Raise BinasciiError
  | Some hmac_bytes =>
      let part := firstn 8 hmac_bytes in
      let value := Bytes.int_from_bytes_big part in
      let roll100 := value mod 10000 in
      let roll := (inject_Z roll100 / 100)%Q in
      Ok roll
  end.

Definition compute_commitment (server_seed : string) : string :=
  sha256_hex server_seed.

(** ** The commitment on a str given by its code points

    A Python [str] is a sequence of code points, surrogates included
    (the command line delivers an undecodable byte [0xNN] as the lone
    surrogate [U+DCNN]).  [s.encode('utf-8')] raises
    [UnicodeEncodeError] on a surrogate. *)

Module Str.

Definition is_surrogate (c : Z) : bool := (0xD800 <=? c) && (c <=? 0xDFFF).

Definition has_surrogate (s : list Z) : bool := existsb is_surrogate s.

(** UTF-8 bytes of one code point; none for a surrogate. *)
Definition encode_char (c : Z) : option (list byte) :=
  if c <? 0x80 then Some [Bytes.of_Z c]
  else if c <? 0x800 then
    Some [Bytes.of_Z (0xC0 + c / 64); Bytes.of_Z (0x80 + c mod 64)]
  else if is_surrogate c then None
  else if c <? 0x10000 then
    Some [Bytes.of_Z (0xE0 + c / 4096); Bytes.of_Z (0x80 + c / 64 mod 64);
          Bytes.of_Z (0x80 + c mod 64)]
  else
    Some [Bytes.of_Z (0xF0 + c / 262144); Bytes.of_Z (0x80 + c / 4096 mod 64);
          Bytes.of_Z (0x80 + c / 64 mod 64); Bytes.of_Z (0x80 + c mod 64)].

(** [s.encode('utf-8')] *)
Fixpoint encode (s : list Z) : result (list byte) :=
  match s with
  | [] => Ok []
  | c :: rest =>
      match encode_char c with
      | None => Raise UnicodeEncodeError
      | Some bs =>
          match encode rest with
          | Ok tail => Ok (bs ++ tail)
          | Raise e => Raise e
          end
      end
  end.

End Str.

Module Unicode.

Definition sha256_hex (s : list Z) : result string :=
  match Str.encode s with
  | Ok bs => Ok (Hex.hexlify (SHA256.digest bs))
  | Raise e => Raise e
  end.

Definition compute_commitment (server_seed : list Z) : result string :=
  sha256_hex server_seed.

End Unicode.

(** ** Output and the calls that produce it *)

Definition nl : string := String "010"%char EmptyString.
Definition dq : string := String "034"%char EmptyString.

(** One recorded call on the [FPDF] object. *)
Inductive pdf_op : Set :=
| AddPage
| SetAutoPageBreak (auto : bool) (margin : Z)
| SetFillColor (r g b : Z)
| Rect (x y w h : Z) (style : string)
| SetFont (family style : string) (size : Z)
| Cell (w h : Z) (txt : string) (ln : bool) (align : string)
| MultiCell (w h : Z) (txt : string)
| Ln (h : Z).

(** What a run leaves outside the process. *)
Inductive event : Set :=
| Stdout (line : string)
| FileWrite (path : string) (doc : list pdf_op).

(** A computation that emits events and then returns or raises. *)
Definition IO (A : Type) : Type := list event * result A.

Definition ret {A} (a : A) : IO A := ([], Ok a).

Definition bind {A B} (m : IO A) (k : A -> IO B) : IO B :=
  match m with
  | (out, Ok a) => let '(out', r) := k a in (out ++ out', r)
  | (out, Raise e) => (out, Raise e)
  end.

Notation "x <- m ;; k" := (bind m (fun x => k))
  (at level 61, m at next level, right associativity).
Notation "m ;; k" := (bind m (fun _ => k))
  (at level 61, right associativity).

Definition print (line : string) : IO unit := ([Stdout line], Ok tt).
Definition sys_exit (code : Z) : IO unit := ([], Raise (SystemExit code)).
Definition lift {A} (r : result A) : IO A := ([], r).

(** [f"{roll:.2f}"]: the value rounded to hundredths, two digits after
    the point.  The rolls printed here are exact hundredths. *)
Definition format_2f (q : Q) : string :=
  let n := Qfloor (Qabs q * 100 + (1 # 2)) in
  let frac := n mod 100 in
  ((if Qlt_le_dec q 0 then "-" else "") ++
   str_int (n / 100) ++ "." ++
   (if Z.ltb frac 10 then "0" else "") ++ str_int frac)%string.

(** ** The float behind the rational

    [roll100 / 100.0] in Python converts the integer to a double and
    divides in IEEE 754 binary64.  The definitions below compute that
    double and its exact value, to compare it with [roll100 / 100]. *)

Module Float64.

Import Floats.

Definition div100 (roll100 : Z) : PrimFloat.float :=
  PrimFloat.div (PrimFloat.of_uint63 (Uint63.of_Z roll100)) 100%float.

(** The rational a finite double stands for. *)
Definition exact (f : PrimFloat.float) : option Q :=
  match FloatOps.Prim2SF f with
  | SpecFloat.S754_zero _ => Some 0%Q
  | SpecFloat.S754_finite sign m e =>
      let v := if 0 <=? e then inject_Z (Z.pos m * 2 ^ e)
               else (Z.pos m # Z.to_pos (2 ^ (- e)))%Q in
      Some (if sign then Qopp v else v)
  | _ => None
  end.

(** The double for [roll100] is finite, within half a unit in the last
    place (2^-47 below 128) of [roll100 / 100], between the doubles [0.0]
    and [99.99], and prints with two decimals as the rational does. *)
#[warnings="-inexact-float"]
Definition agrees (roll100 : Z) : bool :=
  match exact (div100 roll100) with
  | Some v =>
      Qle_bool (Qabs (v - inject_Z roll100 / 100)) (1 # 2 ^ 47) &&
      PrimFloat.leb 0%float (div100 roll100) &&
      PrimFloat.leb (div100 roll100) 99.99%float &&
      String.eqb (format_2f v) (format_2f (inject_Z roll100 / 100))
  | None => false
  end.

(** The double [99.99]. *)
#[warnings="-inexact-float"]
Definition max_roll : PrimFloat.float := 99.99%float.

Definition hundred : PrimFloat.float := 100%float.

End Float64.

(** [roll_from_seeds] with the value it returns in Python: the double
    [roll100 / 100.0]. *)
Definition roll_from_seeds_double (server_seed client_seed : string) (nonce : Z)
    : result PrimFloat.float :=
  let message := (client_seed ++ ":" ++ str_int nonce)%string in
  let hmac_hex := hmac_sha256_hex server_seed message in
  match Hex.unhexlify hmac_hex with
  | None => Raise BinasciiError
  | Some hmac_bytes =>
      let part := firstn 8 hmac_bytes in
      let value := Bytes.int_from_bytes_big part in
      let roll100 := value mod 10000 in
      let roll := Float64.div100 roll100 in
      Ok roll
  end.

(** ** verify_round *)

Definition roll_line (client_seed : string) (nonce : Z) (roll : Q) : string :=
  ("Deterministic roll for client_seed='" ++ client_seed ++ "', nonce=" ++
   str_int nonce ++ " -> " ++ format_2f roll)%string.

Section VerifyRound.

(** The global [roll_from_seeds] is looked up when line 69 runs; the
    body is written over whatever function is bound to that name. *)
Variable roll_fn : string -> string -> Z -> result Q.

Definition verify_round_with
    (published_commitment server_seed client_seed : string) (nonce : Z) : IO bool :=
  let computed_commit := compute_commitment server_seed in
  print ("Published commitment: " ++ published_commitment) ;;
  print ("Computed commitment:  " ++ computed_commit) ;;
  if negb (String.eqb computed_commit published_commitment) then
    print (nl ++ ">>> VERIFICATION FAILED: The provided server_seed does NOT match the published commitment.") ;;
    ret false
  else
    print (nl ++ "Commitment verified: server_seed matches the published commitment.") ;;
    roll <- lift (roll_fn server_seed client_seed nonce) ;;
    print (roll_line client_seed nonce roll) ;;
    ret true.

End VerifyRound.

Definition verify_round : string -> string -> string -> Z -> IO bool :=
  verify_round_with roll_from_seeds.

(** Does the output carry a roll line? *)
Definition is_outcome_line (e : event) : bool :=
  match e with
  | Stdout line => String.prefix "Deterministic roll for" line
  | FileWrite _ _ => false
  end.

Definition outcome_present (out : list event) : bool := existsb is_outcome_line out.

(** ** main *)

(** The namespace [parser.parse_args()] returns. *)
Record args : Set := mkArgs {
  server : option string;
  nonce : Z;
  client : string;
  published : string
}.

(** The namespace when no flag is given. *)
Definition default_args : args := mkArgs None 1 CLIENT_SEED PUBLISHED_COMMITMENT.

(** [not args.server]: the flag is absent or its value is empty. *)
Definition server_given (a : args) : option string :=
  match server a with
  | None => None
  | Some EmptyString => None
  | Some s => Some s
  end.

Definition main (a : args) : IO unit :=
  print "=== Provably-Fair Verifier ===" ;;
  print ("Using client seed: " ++ client a) ;;
  print ("Using published commitment: " ++ published a) ;;
  print "" ;;
  match server_given a with
  | None =>
      print ("No server seed provided. To verify a round, run with --server " ++
             dq ++ "REVEALED_SERVER_SEED" ++ dq) ;;
      print "Example:" ;;
      print ("  python verify_round_with_your_seeds.py --server " ++
             dq ++ "your-server-seed-here" ++ dq ++ " --nonce 1") ;;
      sys_exit 0
  | Some server_seed =>
      ok <- verify_round (published a) server_seed (client a) (nonce a) ;;
      if ok : bool then
        print (nl ++ "Verification completed successfully.")
      else
        print (nl ++ "Verification FAILED. Do not trust the result if server seed and published commitment mismatch.")
  end.

(** [main] above is the function from line 81 on, for the namespace
    that [parser.parse_args()] returned.  argparse is not part of the
    repository; line 79 has three outcomes.  It returns the namespace,
    or (for [-h]/[--help]) prints the help text to standard output and
    leaves with status 0, or (for a command line it rejects) writes
    its usage message to standard error, which the events do not
    record, and leaves with status 2. *)
Inductive parse_outcome : Set :=
| Parsed (a : args)
| Help (text : string)
| Usage.

Definition parse_args (o : parse_outcome) : IO args :=
  match o with
  | Parsed a => ret a
  | Help text => print text ;; ([], Raise (SystemExit 0))
  | Usage => ([], Raise (SystemExit 2))
  end.

(** [main] from its first line. *)
Definition main_cli (o : parse_outcome) : IO unit :=
  a <- parse_args o ;;
  main a.

(** ** The two report scripts that follow [main()] in the file *)

Module Report.

Local Open Scope string_scope.

Definition certificate_1 : string :=
  (nl ++
     "This is to certify that the report titled 'Tulsi (Holy Basil)' has been completed" ++
     nl ++
     "and submitted by the student as part of their academic work. The report includes" ++
     nl ++
     "complete information about the Tulsi plant, its medicinal properties, and its" ++
     nl ++
     "historical and spiritual importance in Hinduism." ++
     nl)%string.

Definition acknowledgement_1 : string :=
  (nl ++
     "I would like to express my sincere gratitude to my teachers, family members," ++
     nl ++
     "and friends who supported and encouraged me during the preparation of this" ++
     nl ++
     "report on the Tulsi plant. I also thank all the sources of information that helped" ++
     nl ++
     "me understand the cultural and medicinal aspects of Tulsi in detail." ++
     nl)%string.

Definition sections_1 : list (string * string) :=
  [ ("Introduction",
     "The Tulsi plant, scientifically known as Ocimum tenuiflorum or Ocimum sanctum, is a sacred herb revered in Hinduism and valued in Ayurveda for its healing and spiritual benefits.");
    ("Botanical Description",
     "Tulsi is a small aromatic shrub from the mint family (Lamiaceae). It has green or purple leaves, fragrant flowers, and thrives in warm climates.");
    ("Historical & Mythological Context",
     "In Hindu mythology, Tulsi is worshipped as Goddess Vrinda, a devoted consort of Lord Vishnu. Tulsi Vivah, the ceremonial marriage to Vishnu, marks the start of the wedding season.");
    ("Medicinal Properties",
     "Tulsi contains essential oils and antioxidants such as eugenol and ursolic acid. It helps treat colds, fevers, respiratory disorders, stress, and infections.");
    ("Modern Applications",
     "Today, Tulsi is used in teas, herbal medicines, skincare, and aromatherapy. It is also being studied for its anti-diabetic, anti-cancer, and immune-boosting potential.");
    ("Conclusion",
     "Tulsi represents the union of spirituality and science—honoured as a goddess in Hindu homes and valued as a potent adaptogen in modern medicine.") ].

Definition certificate_2 : string :=
  (nl ++
     "This is to certify that the report titled 'Tulsi (Holy Basil)' has been completed" ++
     nl ++
     "and submitted by Anushka as part of her academic work. The report includes" ++
     nl ++
     "complete information about the Tulsi plant, its medicinal properties, and its" ++
     nl ++
     "historical and spiritual importance in Hinduism." ++
     nl)%string.

Definition acknowledgement_2 : string :=
  (nl ++
     "I would like to express my sincere gratitude to my teacher Anu for her constant" ++
     nl ++
     "guidance and encouragement during the preparation of this report. I also thank" ++
     nl ++
     "my family members and friends for their support. This report is dedicated to" ++
     nl ++
     "all who respect and value the sacred Tulsi plant." ++
     nl)%string.

Definition sections_2 : list (string * string) :=
  [ ("Introduction",
     "The Tulsi plant, scientifically known as Ocimum tenuiflorum or Ocimum sanctum, is one of the most sacred plants in India. It holds immense cultural, spiritual, and medicinal value. It is revered not just as a plant but as a goddess — the manifestation of Goddess Vrinda. Tulsi plays a central role in Ayurvedic medicine and Hindu rituals.");
    ("Botanical Description",
     "Tulsi belongs to the Lamiaceae family and is a small aromatic shrub with green or purple leaves. It grows in tropical and subtropical regions and thrives in sunlight with moderate watering. The plant emits a strong, soothing fragrance due to its essential oils.");
    ("Historical & Mythological Context",
     "According to Hindu scriptures like the Padma Purana and the Skanda Purana, Tulsi is believed to be the earthly form of the goddess Vrinda, who was devoted to Lord Vishnu. The festival of Tulsi Vivah celebrates the symbolic marriage of Tulsi to Lord Vishnu, marking the beginning of the Hindu wedding season.");
    ("Medicinal Properties",
     "Tulsi is known for its remarkable healing properties. It acts as an adaptogen, helping the body manage stress. Its anti-inflammatory, antimicrobial, and antioxidant properties make it beneficial in treating colds, fevers, respiratory problems, and digestive disorders. Tulsi tea is commonly consumed for immunity and wellness.");
    ("Modern Applications",
     "Modern research has validated many traditional uses of Tulsi. It is used in herbal teas, supplements, essential oils, and skincare products. Scientific studies have shown that compounds like eugenol and ursolic acid in Tulsi can help reduce inflammation, control blood sugar, and enhance immunity.");
    ("Conclusion",
     "Tulsi represents the union of science and spirituality. Worshipped as a goddess and used as a powerful herbal remedy, Tulsi continues to hold a unique place in Indian culture and modern wellness practices. Caring for a Tulsi plant is both an act of devotion and a step toward natural healing and environmental harmony.") ].

(** [PDF.header]: the calls the library makes through this callback
    each time it starts a page, at [add_page] and at an automatic page
    break. *)
Definition header : list pdf_op :=
  [ SetFont "Arial" "B" 16;
    Cell 0 10 "Comprehensive Report on Tulsi (Holy Basil)" true "C";
    Ln 10 ].

Definition add_heading (title : string) : list pdf_op :=
  [ SetFont "Arial" "BU" 30; Cell 0 20 title true ""; Ln 5 ].

(** One turn of the loop over [sections.items()]. *)
Definition section_ops (entry : string * string) : list pdf_op :=
  let '(title, content) := entry in
  (add_heading title ++ [ SetFont "Arial" "" 12; MultiCell 0 10 content; Ln 10 ])%list.

(** The calls the script makes on [pdf] before [pdf.output], in order;
    the two scripts differ in the texts only. *)
Definition document (prepared_by submitted_to certificate acknowledgement : string)
    (sections : list (string * string)) : list pdf_op :=
  ([ AddPage;
    SetAutoPageBreak true 15;
    SetFillColor 255 255 153;
    Rect 0 0 210 297 "F";
    SetFont "Arial" "B" 24;
    Cell 0 80 "TULSI (HOLY BASIL) REPORT" true "C";
    SetFont "Arial" "" 14;
    Cell 0 10 prepared_by true "C";
    Cell 0 10 submitted_to true "C";
    Cell 0 10 "Date: October 2025" true "C";
    Ln 40;
    SetFont "Arial" "B" 20;
    Cell 0 10 "Certificate" true "C";
    SetFont "Arial" "" 12;
    MultiCell 0 10 certificate;
    Ln 10;
    SetFont "Arial" "B" 20;
    Cell 0 10 "Acknowledgement" true "C";
    SetFont "Arial" "" 12;
    MultiCell 0 10 acknowledgement;
    Ln 10;
    AddPage;
    Rect 0 0 210 297 "F";
    SetFont "Arial" "" 12 ] ++
  flat_map section_ops sections)%list.

Definition document_1 : list pdf_op :=
  document "Prepared by: Student Name" "Submitted to: ____________"
           certificate_1 acknowledgement_1 sections_1.

Definition document_2 : list pdf_op :=
  document "Prepared by: Anushka" "Submitted to: Anu"
           certificate_2 acknowledgement_2 sections_2.

(** fpdf is not part of the repository.  Its built-in fonts, "Arial"
    among them, take text of the single-byte encoding latin-1 only.  A
    [cell] or [multi_cell] whose text holds a character beyond U+00FF
    raises (fpdf2 at that call, the older fpdf with the same text when
    [pdf.output] builds the pages), in both cases before any file is
    opened and with nothing printed in between.  In UTF-8 the
    characters up to U+00FF are those whose bytes stay below [0xC4]. *)
Definition latin1_text (s : string) : bool :=
  forallb (fun b => Z.ltb (Bytes.to_Z b) 0xC4) (Bytes.encode_utf8 s).

Definition text_accepted (op : pdf_op) : bool :=
  match op with
  | Cell _ _ txt _ _ => latin1_text txt
  | MultiCell _ _ txt => latin1_text txt
  | _ => true
  end.

Definition call_accepted (op : pdf_op) : bool :=
  match op with
  | AddPage => forallb text_accepted header
  | _ => text_accepted op
  end.

(** The calls run in order, up to the first one the library refuses. *)
Fixpoint fpdf_calls (ops : list pdf_op) : result unit :=
  match ops with
  | [] => Ok tt
  | op :: rest => if call_accepted op then fpdf_calls rest else Raise FpdfError
  end.

(** [pdf.output(path)] on a document whose calls all went through. *)
Definition pdf_output (path : string) (doc : list pdf_op) : IO unit :=
  ([FileWrite path doc], Ok tt).

Definition report_1 : IO unit :=
  lift (fpdf_calls document_1) ;;
  pdf_output "Tulsi_Report.pdf" document_1 ;;
  print "✅ Tulsi_Report.pdf created successfully!".

Definition report_2 : IO unit :=
  lift (fpdf_calls document_2) ;;
  pdf_output "Tulsi_Report_Anushka.pdf" document_2 ;;
  print "✅ Tulsi_Report_Anushka.pdf created successfully!".

(** The file run as a script: [main()], then the module-level code of
    the two reports. *)
Definition anu_script (o : parse_outcome) : IO unit :=
  main_cli o ;; report_1 ;; report_2.

End Report.

Definition is_file_write (e : event) : bool :=
  match e with
  | FileWrite _ _ => true
  | Stdout _ => false
  end.

Definition is_stdout (e : event) : bool := negb (is_file_write e).

(** The run ends without a traceback: the script ran to its end, or
    left through [sys.exit].  Any other exception is uncaught, and the
    interpreter writes its traceback to standard error and leaves with
    status 1. *)
Definition quiet_end (r : result unit) : bool :=
  match r with
  | Ok _ => true
  | Raise (SystemExit _) => true
  | Raise _ => false
  end.

(** ** The roll as the specification describes it

    Message, keyed hash, first eight bytes of the 32-byte digest as a
    big-endian integer [V], then [(V mod 10000) / 100]. *)

Definition spec_message (clientSeed : string) (nonce : Z) : string :=
  (clientSeed ++ ":" ++ str_int nonce)%string.

Definition spec_digest (serverSeed clientSeed : string) (nonce : Z) : list byte :=
  HMAC.digest (Bytes.encode_utf8 serverSeed)
              (Bytes.encode_utf8 (spec_message clientSeed nonce)).

Definition spec_V (serverSeed clientSeed : string) (nonce : Z) : Z :=
  Bytes.int_from_bytes_big (firstn 8 (spec_digest serverSeed clientSeed nonce)).

Definition spec_compute_roll (serverSeed clientSeed : string) (nonce : Z) : Q :=
  (inject_Z (spec_V serverSeed clientSeed nonce mod 10000) / 100)%Q.

(** The three lines [verify_round] prints when the commitment differs. *)
Definition mismatch_output (published_commitment server_seed : string) : list event :=
  [ Stdout ("Published commitment: " ++ published_commitment);
    Stdout ("Computed commitment:  " ++ compute_commitment server_seed);
    Stdout (nl ++ ">>> VERIFICATION FAILED: The provided server_seed does NOT match the published commitment.") ].

(** The four lines it prints when the commitment matches. *)
Definition match_output (server_seed client_seed : string) (nonce : Z) (roll : Q) : list event :=
  [ Stdout ("Published commitment: " ++ compute_commitment server_seed);
    Stdout ("Computed commitment:  " ++ compute_commitment server_seed);
    Stdout (nl ++ "Commitment verified: server_seed matches the published commitment.");
    Stdout (roll_line client_seed nonce roll) ].

(** The lines [main] prints before it branches on the server seed. *)
Definition banner (a : args) : list event :=
  [ Stdout "=== Provably-Fair Verifier ===";
    Stdout ("Using client seed: " ++ client a);
    Stdout ("Using published commitment: " ++ published a);
    Stdout "" ].

(** ** Vocabulary for the further properties *)

(** No character of [s] is the separator [:]. *)
Definition no_colon (s : string) : bool :=
  Hex.all_chars (fun c => negb (Ascii.eqb c ":")) s.

(** The line [main] prints after [verify_round] has returned [ok]. *)
Definition closing_line (ok : bool) : string :=
  if ok then (nl ++ "Verification completed successfully.")%string
  else (nl ++ "Verification FAILED. Do not trust the result if server seed and published commitment mismatch.")%string.


(** * Properties *)

Arguments SHA256.digest : simpl never.
Arguments HMAC.digest : simpl never.

(** ** Bytes, digests and hexadecimal text *)

Lemma to_Z_range (b : byte) : 0 <= Bytes.to_Z b < 256.
Proof. destruct b; unfold Bytes.to_Z; simpl; lia. Qed.

Lemma be_bytes_length (n : nat) (z : Z) : List.length (Bytes.be_bytes n z) = n.
Proof. induction n as [|n IH]; simpl; [reflexivity | now rewrite IH]. Qed.

Lemma sha256_digest_length (msg : list byte) : List.length (SHA256.digest msg) = 32%nat.
Proof.
  unfold SHA256.digest, SHA256.state_bytes.
  rewrite !length_app, !be_bytes_length. reflexivity.
Qed.

Lemma hmac_digest_length (key msg : list byte) : List.length (HMAC.digest key msg) = 32%nat.
Proof. unfold HMAC.digest. apply sha256_digest_length. Qed.

Lemma int_from_bytes_big_acc (bs : list byte) (acc : Z) :
  0 <= acc ->
  0 <= fold_left (fun a b => a * 256 + Bytes.to_Z b) bs acc
    < (acc + 1) * 256 ^ Z.of_nat (List.length bs).
Proof.
  revert acc. induction bs as [|b bs IH]; intros acc Hacc.
  - simpl. lia.
  - cbn [fold_left List.length].
    pose proof (to_Z_range b) as Hb.
    specialize (IH (acc * 256 + Bytes.to_Z b) ltac:(lia)).
    rewrite Nat2Z.inj_succ, Z.pow_succ_r by lia.
    assert (0 < 256 ^ Z.of_nat (List.length bs)) by (apply Z.pow_pos_nonneg; lia).
    nia.
Qed.

Lemma int_from_bytes_big_range (bs : list byte) :
  0 <= Bytes.int_from_bytes_big bs < 256 ^ Z.of_nat (List.length bs).
Proof.
  unfold Bytes.int_from_bytes_big.
  pose proof (int_from_bytes_big_acc bs 0 ltac:(lia)). lia.
Qed.

Lemma hex_of_byte_shape (b : byte) :
  exists c1 c2, Hex.hex_of_byte b = String c1 (String c2 EmptyString) /\
                Hex.is_lower_hex c1 = true /\ Hex.is_lower_hex c2 = true.
Proof. destruct b; do 2 eexists; repeat split. Qed.

Lemma hexlify_length (bs : list byte) :
  String.length (Hex.hexlify bs) = (2 * List.length bs)%nat.
Proof.
  induction bs as [|b bs IH]; [reflexivity|].
  cbn [Hex.hexlify List.length].
  destruct (hex_of_byte_shape b) as (c1 & c2 & -> & _).
  cbn [String.append String.length]. rewrite IH. lia.
Qed.

Lemma hexlify_lower (bs : list byte) :
  Hex.all_chars Hex.is_lower_hex (Hex.hexlify bs) = true.
Proof.
  induction bs as [|b bs IH]; [reflexivity|].
  cbn [Hex.hexlify].
  destruct (hex_of_byte_shape b) as (c1 & c2 & -> & H1 & H2).
  cbn [String.append Hex.all_chars]. now rewrite H1, H2, IH.
Qed.

Lemma unhexlify_hex_of_byte (b : byte) (rest : string) :
  Hex.unhexlify (Hex.hex_of_byte b ++ rest) =
  match Hex.unhexlify rest with
  | Some bs => Some (b :: bs)
  | None => None
  end.
Proof. destruct b; reflexivity. Qed.

Lemma unhexlify_hexlify (bs : list byte) : Hex.unhexlify (Hex.hexlify bs) = Some bs.
Proof.
  induction bs as [|b bs IH]; [reflexivity|].
  cbn [Hex.hexlify]. now rewrite unhexlify_hex_of_byte, IH.
Qed.

(** ** The roll *)

Lemma roll_from_seeds_eq (S C : string) (N : Z) :
  roll_from_seeds S C N = Ok (spec_compute_roll S C N).
Proof.
  unfold roll_from_seeds, hmac_sha256_hex.
  rewrite unhexlify_hexlify.
  unfold spec_compute_roll, spec_V, spec_digest, spec_message. reflexivity.
Qed.

Lemma spec_V_range (S C : string) (N : Z) : 0 <= spec_V S C N < 2 ^ 64.
Proof.
  unfold spec_V.
  pose proof (int_from_bytes_big_range (firstn 8 (spec_digest S C N))) as H.
  assert (L : List.length (firstn 8 (spec_digest S C N)) = 8%nat).
  { rewrite length_firstn. unfold spec_digest. rewrite hmac_digest_length. reflexivity. }
  rewrite L in H. exact H.
Qed.

Lemma hundredths_range (k : Z) :
  0 <= k <= 9999 ->
  ((inject_Z k / 100) * 100 == inject_Z k)%Q /\
  (0 <= inject_Z k / 100)%Q /\ (inject_Z k / 100 <= 9999 # 100)%Q.
Proof.
  intros Hk. unfold Qeq, Qle, Qdiv, Qmult, Qinv, inject_Z. simpl. lia.
Qed.

Lemma float_agrees_all : forallb Float64.agrees (map Z.of_nat (seq 0 (100 * 100))) = true.
Proof. vm_compute. reflexivity. Qed.

(** The double Python computes for a roll agrees with the rational the
    model carries. *)
Lemma float_roll_agrees (S C : string) (N : Z) :
  Float64.agrees (spec_V S C N mod 10000) = true.
Proof.
  pose proof (Z.mod_pos_bound (spec_V S C N) 10000 ltac:(lia)) as Hk.
  pose proof float_agrees_all as H. rewrite forallb_forall in H.
  apply H. rewrite <- (Z2Nat.id (spec_V S C N mod 10000)) by lia.
  apply in_map, in_seq. lia.
Qed.

Lemma spec_compute_roll_range (S C : string) (N : Z) :
  exists k, 0 <= k <= 9999 /\
            spec_compute_roll S C N = (inject_Z k / 100)%Q /\
            (spec_compute_roll S C N * 100 == inject_Z k)%Q /\
            (0 <= spec_compute_roll S C N)%Q /\
            (spec_compute_roll S C N <= 9999 # 100)%Q /\
            Float64.agrees k = true.
Proof.
  exists (spec_V S C N mod 10000).
  assert (Hk : 0 <= spec_V S C N mod 10000 <= 9999).
  { pose proof (Z.mod_pos_bound (spec_V S C N) 10000 ltac:(lia)). lia. }
  unfold spec_compute_roll.
  destruct (hundredths_range _ Hk) as (H1 & H2 & H3).
  pose proof (float_roll_agrees S C N). auto 10.
Qed.

Lemma str_int_negative (N : Z) : N < 0 -> str_int N = ("-" ++ str_int (- N))%string.
Proof. destruct N; try lia. intros _. reflexivity. Qed.

(** ** verify_round *)

Lemma verify_round_with_mismatch_eq
    (roll_fn : string -> string -> Z -> result Q) (p s c : string) (n : Z) :
  compute_commitment s <> p ->
  verify_round_with roll_fn p s c n = (mismatch_output p s, Ok false).
Proof.
  intros Hne. unfold verify_round_with.
  destruct (String.eqb_spec (compute_commitment s) p) as [E|_]; [contradiction|].
  reflexivity.
Qed.

Lemma verify_round_match_eq (s c : string) (n : Z) :
  verify_round (compute_commitment s) s c n =
  (match_output s c n (spec_compute_roll s c n), Ok true).
Proof.
  unfold verify_round, verify_round_with.
  rewrite String.eqb_refl, roll_from_seeds_eq. reflexivity.
Qed.

Lemma outcome_present_mismatch (p s : string) :
  outcome_present (mismatch_output p s) = false.
Proof. reflexivity. Qed.

Lemma outcome_present_match (s c : string) (n : Z) (roll : Q) :
  outcome_present (match_output s c n roll) = true.
Proof. reflexivity. Qed.

(** ** main and the script *)

Lemma main_no_server (a : args) :
  server_given a = None ->
  main a =
  (banner a ++
   [ Stdout ("No server seed provided. To verify a round, run with --server " ++
             dq ++ "REVEALED_SERVER_SEED" ++ dq);
     Stdout "Example:";
     Stdout ("  python verify_round_with_your_seeds.py --server " ++
             dq ++ "your-server-seed-here" ++ dq ++ " --nonce 1") ],
   Raise (SystemExit 0)).
Proof. intros E. unfold main. rewrite E. reflexivity. Qed.

Lemma main_match (a : args) (s : string) :
  server_given a = Some s ->
  compute_commitment s = published a ->
  main a =
  (banner a ++
   match_output s (client a) (nonce a) (spec_compute_roll s (client a) (nonce a)) ++
   [ Stdout (nl ++ "Verification completed successfully.") ],
   Ok tt).
Proof.
  intros E Hc. unfold main, banner. rewrite E, <- Hc, verify_round_match_eq. reflexivity.
Qed.

Lemma main_mismatch (a : args) (s : string) :
  server_given a = Some s ->
  compute_commitment s <> published a ->
  main a =
  (banner a ++ mismatch_output (published a) s ++
   [ Stdout (nl ++ "Verification FAILED. Do not trust the result if server seed and published commitment mismatch.") ],
   Ok tt).
Proof.
  intros E Hc. unfold main, verify_round.
  rewrite E, verify_round_with_mismatch_eq by assumption. reflexivity.
Qed.

Lemma main_only_prints (a : args) : forallb is_stdout (fst (main a)) = true.
Proof.
  destruct (server_given a) as [s|] eqn:E.
  - destruct (string_dec (compute_commitment s) (published a)) as [Hc|Hc].
    + rewrite (main_match a s E Hc). reflexivity.
    + rewrite (main_mismatch a s E Hc). reflexivity.
  - rewrite (main_no_server a E). reflexivity.
Qed.

Lemma main_returns_with_server (a : args) (s : string) :
  server_given a = Some s -> snd (main a) = Ok tt.
Proof.
  intros E.
  destruct (string_dec (compute_commitment s) (published a)) as [Hc|Hc].
  - rewrite (main_match a s E Hc). reflexivity.
  - rewrite (main_mismatch a s E Hc). reflexivity.
Qed.

Lemma filter_file_write_stdout (out : list event) :
  forallb is_stdout out = true -> filter is_file_write out = [].
Proof.
  induction out as [|e out IH]; [reflexivity|].
  cbn [forallb filter]. unfold is_stdout at 1.
  destruct (is_file_write e); cbn [negb andb]; [discriminate | exact IH].
Qed.

(** ** Test vectors for the library models *)

Example sha256_constants :
  List.length SHA256.K = 64%nat /\
  nth 0 SHA256.K 0 = 0x428a2f98 /\ nth 63 SHA256.K 0 = 0xc67178f2 /\
  SHA256.sa SHA256.H0 = 0x6a09e667 /\ SHA256.sh SHA256.H0 = 0x5be0cd19.
Proof. repeat split. Qed.

Example sha256_abc :
  Hex.hexlify (SHA256.digest (Bytes.encode_utf8 "abc")) =
  "ba7816bf8f01cfea414140de5dae2223b00361a396177a9cb410ff61f20015ad"%string.
Proof. vm_compute. reflexivity. Qed.

Example sha256_two_blocks :
  Hex.hexlify (SHA256.digest (Bytes.encode_utf8
    "abcdbcdecdefdefgefghfghighijhijkijkljklmklmnlmnomnopnopq")) =
  "248d6a61d20638b8e5c026930c3e6039a33ce45964ff2167f6ecedd419db06c1"%string.
Proof. vm_compute. reflexivity. Qed.

Example hmac_rfc4231_case2 :
  hmac_sha256_hex "Jefe" "what do ya want for nothing?" =
  "5bdcc146bf60754e6a042426089575c75a003f089d2739839dec58b964ec3843"%string.
Proof. vm_compute. reflexivity. Qed.

Example hmac_rfc4231_case6 :
  Hex.hexlify (HMAC.digest (repeat xaa 131)
    (Bytes.encode_utf8 "Test Using Larger Than Block-Size Key - Hash Key First")) =
  "60e431591ee0b67f0d8a26aacbf5b77f8e0bc6213728c5140546040f0ee37f54"%string.
Proof. vm_compute. reflexivity. Qed.

Example commitment_abc123 :
  compute_commitment "abc123" =
  "6ca13d52ca70c883e0f0bb101e425a89e8624de51db2d2392593af6a84118090"%string.
Proof. vm_compute. reflexivity. Qed.

Example roll_abc123_nonce1 :
  roll_from_seeds "abc123" CLIENT_SEED 1 = Ok (5264 # 100).
Proof. vm_compute. reflexivity. Qed.

(** * The claims *)

(** C1. [verify_round] returns [True] with the roll computed and
    printed exactly when the recomputed commitment equals the published
    one; when they differ it returns [False] and no roll line is
    printed. *)
Theorem verify_round_true_iff_commitment (p s c : string) (n : Z) :
  (snd (verify_round p s c n) = Ok true /\
   outcome_present (fst (verify_round p s c n)) = true
   <-> compute_commitment s = p) /\
  (compute_commitment s = p ->
   exists roll, roll_from_seeds s c n = Ok roll /\
                In (Stdout (roll_line c n roll)) (fst (verify_round p s c n))) /\
  (compute_commitment s <> p ->
   snd (verify_round p s c n) = Ok false /\
   outcome_present (fst (verify_round p s c n)) = false).
Proof.
  destruct (string_dec (compute_commitment s) p) as [E|E].
  - subst p. rewrite verify_round_match_eq. cbn [fst snd].
    rewrite outcome_present_match.
    repeat split; try reflexivity; try contradiction.
    intros _. exists (spec_compute_roll s c n). split.
    + apply roll_from_seeds_eq.
    + unfold match_output. simpl. tauto.
  - unfold verify_round. rewrite verify_round_with_mismatch_eq by assumption.
    cbn [fst snd]. rewrite outcome_present_mismatch.
    repeat split; try reflexivity; try contradiction.
    intros [H _]. discriminate.
Qed.

(** C2. For a non-negative nonce, [roll_from_seeds] returns the value
    the specification's algorithm gives: HMAC-SHA256 keyed by the server
    seed over [clientSeed:nonce], the first 8 of the 32 digest bytes read
    as a big-endian unsigned 64-bit integer [V], then [(V mod 10000) / 100]. *)
Theorem roll_from_seeds_follows_spec_algorithm (S C : string) (N : Z) :
  0 <= N ->
  roll_from_seeds S C N = Ok (spec_compute_roll S C N) /\
  List.length (spec_digest S C N) = 32%nat /\
  0 <= spec_V S C N < 2 ^ 64.
Proof.
  intros _. split; [apply roll_from_seeds_eq|]. split.
  - apply hmac_digest_length.
  - apply spec_V_range.
Qed.

Lemma roll_from_seeds_follows_spec_algorithm_witness :
  roll_from_seeds "abc123" CLIENT_SEED 1 = Ok (spec_compute_roll "abc123" CLIENT_SEED 1) /\
  List.length (spec_digest "abc123" CLIENT_SEED 1) = 32%nat /\
  0 <= spec_V "abc123" CLIENT_SEED 1 < 2 ^ 64.
Proof. apply (roll_from_seeds_follows_spec_algorithm "abc123" CLIENT_SEED 1). lia. Defined.

(** On a [str] given by its UTF-8 bytes, [compute_commitment] is the
    lowercase hexadecimal text of the SHA-256 digest of those bytes: 64
    characters, each one of [0-9a-f]. *)
Lemma compute_commitment_lowercase_hex_sha256 (S : string) :
  compute_commitment S = Hex.hexlify (SHA256.digest (Bytes.encode_utf8 S)) /\
  String.length (compute_commitment S) = 64%nat /\
  Hex.all_chars Hex.is_lower_hex (compute_commitment S) = true.
Proof.
  unfold compute_commitment, sha256_hex. split; [reflexivity|]. split.
  - rewrite hexlify_length, sha256_digest_length. reflexivity.
  - apply hexlify_lower.
Qed.

(** ** The encoder on code points *)

Example utf8_vectors :
  Str.encode [0x41; 0xE9; 0x20AC; 0x2014; 0x1F600] =
  Ok [x41; xc3; xa9; xe2; x82; xac; xe2; x80; x94; xf0; x9f; x98; x80].
Proof. reflexivity. Qed.

Example commitment_abc123_code_points :
  Unicode.compute_commitment [0x61; 0x62; 0x63; 0x31; 0x32; 0x33] =
  Ok (compute_commitment "abc123").
Proof. vm_compute. reflexivity. Qed.

Lemma encode_char_surrogate (c : Z) :
  Str.is_surrogate c = true -> Str.encode_char c = None.
Proof.
  unfold Str.encode_char. intros H. rewrite H.
  unfold Str.is_surrogate in H. apply andb_prop in H. destruct H as [H1 H2].
  apply Z.leb_le in H1.
  destruct (Z.ltb_spec c 0x80); [lia|].
  destruct (Z.ltb_spec c 0x800); [lia|]. reflexivity.
Qed.

Lemma encode_char_scalar (c : Z) :
  Str.is_surrogate c = false -> exists bs, Str.encode_char c = Some bs.
Proof.
  unfold Str.encode_char. intros H. rewrite H.
  destruct (c <? 0x80); [eauto|].
  destruct (c <? 0x800); [eauto|].
  destruct (c <? 0x10000); eauto.
Qed.

Lemma encode_scalars (S : list Z) :
  Str.has_surrogate S = false -> exists bs, Str.encode S = Ok bs.
Proof.
  induction S as [|c S IH]; intros H; [now exists []|].
  cbn [Str.has_surrogate existsb] in H. apply orb_false_elim in H. destruct H as [Hc HS].
  destruct (encode_char_scalar c Hc) as [bs Hbs].
  destruct (IH HS) as [tail Htail].
  exists (bs ++ tail)%list. cbn [Str.encode]. now rewrite Hbs, Htail.
Qed.

Lemma encode_surrogate (S : list Z) :
  Str.has_surrogate S = true -> Str.encode S = Raise UnicodeEncodeError.
Proof.
  induction S as [|c S IH]; intros H; [discriminate|].
  cbn [Str.has_surrogate existsb] in H. cbn [Str.encode].
  destruct (Str.is_surrogate c) eqn:Hc.
  - now rewrite (encode_char_surrogate c Hc).
  - destruct (encode_char_scalar c Hc) as [bs ->].
    cbn [orb] in H. now rewrite (IH H).
Qed.

(** C3, as stated, fails: the server seed [--server $'\xff'] reaches the
    program as the one-character string [U+DCFF], and computing its
    commitment raises. *)
Lemma commitment_raises_on_lone_surrogate :
  Unicode.compute_commitment [0xDCFF] = Raise UnicodeEncodeError.
Proof. reflexivity. Qed.

(** C3, amended.  For every string without a surrogate code point,
    [compute_commitment] does not fail and returns the lowercase
    hexadecimal text of the SHA-256 digest of the string's UTF-8 bytes,
    64 characters, each one of [0-9a-f]; it is the value the byte-string
    model gives for those bytes.  On a string that holds a surrogate it
    raises [UnicodeEncodeError]. *)
Theorem compute_commitment_on_code_points (S : list Z) :
  (Str.has_surrogate S = false ->
   exists bs h,
     Str.encode S = Ok bs /\
     Unicode.compute_commitment S = Ok h /\
     h = Hex.hexlify (SHA256.digest bs) /\
     h = compute_commitment (string_of_list_byte bs) /\
     String.length h = 64%nat /\
     Hex.all_chars Hex.is_lower_hex h = true) /\
  (Str.has_surrogate S = true ->
   Unicode.compute_commitment S = Raise UnicodeEncodeError).
Proof.
  split; intros H.
  - destruct (encode_scalars S H) as [bs Hbs].
    exists bs, (Hex.hexlify (SHA256.digest bs)).
    unfold Unicode.compute_commitment, Unicode.sha256_hex. rewrite Hbs.
    split; [reflexivity|]. split; [reflexivity|]. split; [reflexivity|].
    split; [|split].
    + unfold compute_commitment, sha256_hex, Bytes.encode_utf8.
      now rewrite list_byte_of_string_of_list_byte.
    + rewrite hexlify_length, sha256_digest_length. reflexivity.
    + apply hexlify_lower.
  - unfold Unicode.compute_commitment, Unicode.sha256_hex.
    now rewrite (encode_surrogate S H).
Qed.

Lemma compute_commitment_on_code_points_witness :
  (exists bs h,
     Str.encode [0x61; 0x62; 0x63; 0x31; 0x32; 0x33] = Ok bs /\
     Unicode.compute_commitment [0x61; 0x62; 0x63; 0x31; 0x32; 0x33] = Ok h /\
     h = Hex.hexlify (SHA256.digest bs) /\
     h = compute_commitment (string_of_list_byte bs) /\
     String.length h = 64%nat /\
     Hex.all_chars Hex.is_lower_hex h = true) /\
  Unicode.compute_commitment [0x61; 0xDC80] = Raise UnicodeEncodeError.
Proof.
  split.
  - apply (proj1 (compute_commitment_on_code_points [0x61; 0x62; 0x63; 0x31; 0x32; 0x33])).
    reflexivity.
  - apply (proj2 (compute_commitment_on_code_points [0x61; 0xDC80])). reflexivity.
Defined.

(** C4. When the recomputed commitment differs from the published one,
    [verify_round] prints its three lines and returns [False]; it does
    not raise, and the result is the same whatever function is bound to
    [roll_from_seeds], a function that would raise included: the roll is
    not computed on this branch. *)
Theorem verify_round_mismatch_reports_false
    (roll_fn : string -> string -> Z -> result Q) (p s c : string) (n : Z) :
  compute_commitment s <> p ->
  verify_round_with roll_fn p s c n = (mismatch_output p s, Ok false) /\
  verify_round p s c n = (mismatch_output p s, Ok false).
Proof.
  intros Hne. unfold verify_round.
  split; apply verify_round_with_mismatch_eq; assumption.
Qed.

Lemma verify_round_mismatch_reports_false_witness :
  let p := "deadbeefdeadbeefdeadbeefdeadbeefdeadbeefdeadbeefdeadbeefdeadbeef"%string in
  let raising := fun (_ _ : string) (_ : Z) => @Raise Q BinasciiError in
  verify_round_with raising p "abc123" CLIENT_SEED 1 = (mismatch_output p "abc123", Ok false) /\
  verify_round p "abc123" CLIENT_SEED 1 = (mismatch_output p "abc123", Ok false).
Proof.
  intros p raising.
  apply (verify_round_mismatch_reports_false raising p "abc123" CLIENT_SEED 1).
  vm_compute. discriminate.
Defined.

Lemma roll_from_seeds_double_eq (S C : string) (N : Z) :
  roll_from_seeds_double S C N = Ok (Float64.div100 (spec_V S C N mod 10000)).
Proof.
  unfold roll_from_seeds_double, hmac_sha256_hex.
  rewrite unhexlify_hexlify.
  unfold spec_V, spec_digest, spec_message. reflexivity.
Qed.

(** C5, as stated, fails on its last part: at nonce 14 the roll is the
    double for 3820 hundredths, and 100 times that double is not an
    integer, neither as a real number nor as the product the machine
    computes. *)
Lemma hundred_times_roll_not_integer :
  0 <= 14 /\
  roll_from_seeds_double "abc123" CLIENT_SEED 14 = Ok (Float64.div100 3820) /\
  (exists v, Float64.exact (Float64.div100 3820) = Some v /\
             forall k : Z, ~ (v * 100 == inject_Z k)%Q) /\
  PrimFloat.eqb (PrimFloat.mul (Float64.div100 3820) Float64.hundred)
                (PrimFloat.of_uint63 (Uint63.of_Z 3820)) = false.
Proof.
  split; [lia|]. split; [vm_compute; reflexivity|]. split.
  - eexists. split; [vm_compute; reflexivity|].
    intros k H. unfold Qeq in H. cbn in H. lia.
  - vm_compute. reflexivity.
Qed.

(** C5, amended.  For a non-negative nonce [roll_from_seeds] returns the
    double [roll100 / 100.0] for an integer [roll100] between 0 and
    9999, the one whose hundredths the rational model carries.  That
    double compares within [0.0, 99.99], lies within 2^-47 of
    [roll100 / 100] and prints with two decimals as [roll100 / 100]
    does. *)
Theorem roll_double_in_range (S C : string) (N : Z) :
  0 <= N ->
  exists roll100 d v,
    0 <= roll100 <= 9999 /\
    roll_from_seeds_double S C N = Ok d /\
    d = Float64.div100 roll100 /\
    roll_from_seeds S C N = Ok (inject_Z roll100 / 100)%Q /\
    Float64.exact d = Some v /\
    (Qabs (v - inject_Z roll100 / 100) <= 1 # 2 ^ 47)%Q /\
    PrimFloat.leb PrimFloat.zero d = true /\
    PrimFloat.leb d Float64.max_roll = true /\
    format_2f v = format_2f (inject_Z roll100 / 100).
Proof.
  intros _.
  pose proof (Z.mod_pos_bound (spec_V S C N) 10000 ltac:(lia)) as Hk.
  pose proof (float_roll_agrees S C N) as H.
  unfold Float64.agrees in H.
  destruct (Float64.exact (Float64.div100 (spec_V S C N mod 10000))) as [v|] eqn:Hv;
    [|discriminate].
  apply andb_prop in H. destruct H as [H H4].
  apply andb_prop in H. destruct H as [H H3].
  apply andb_prop in H. destruct H as [H1 H2].
  exists (spec_V S C N mod 10000), (Float64.div100 (spec_V S C N mod 10000)), v.
  split; [lia|]. split; [apply roll_from_seeds_double_eq|]. split; [reflexivity|].
  split; [apply roll_from_seeds_eq|]. split; [exact Hv|].
  split; [now apply Qle_bool_iff|]. split; [exact H2|]. split; [exact H3|].
  now apply String.eqb_eq.
Qed.

Lemma roll_double_in_range_witness :
  exists roll100 d v,
    0 <= roll100 <= 9999 /\
    roll_from_seeds_double "abc123" CLIENT_SEED 14 = Ok d /\
    d = Float64.div100 roll100 /\
    roll_from_seeds "abc123" CLIENT_SEED 14 = Ok (inject_Z roll100 / 100)%Q /\
    Float64.exact d = Some v /\
    (Qabs (v - inject_Z roll100 / 100) <= 1 # 2 ^ 47)%Q /\
    PrimFloat.leb PrimFloat.zero d = true /\
    PrimFloat.leb d Float64.max_roll = true /\
    format_2f v = format_2f (inject_Z roll100 / 100).
Proof. apply (roll_double_in_range "abc123" CLIENT_SEED 14). lia. Defined.

(** C7, as stated, fails: with nonce [-1] the roll is computed and
    [verify_round] reports it. *)
Lemma negative_nonce_produces_roll :
  -1 < 0 /\
  roll_from_seeds "abc123" CLIENT_SEED (-1) = Ok (3972 # 100) /\
  verify_round (compute_commitment "abc123") "abc123" CLIENT_SEED (-1) =
  ([ Stdout "Published commitment: 6ca13d52ca70c883e0f0bb101e425a89e8624de51db2d2392593af6a84118090";
     Stdout "Computed commitment:  6ca13d52ca70c883e0f0bb101e425a89e8624de51db2d2392593af6a84118090";
     Stdout (nl ++ "Commitment verified: server_seed matches the published commitment.");
     Stdout "Deterministic roll for client_seed='pxfv6pdY0X', nonce=-1 -> 39.72" ],
   Ok true).
Proof. split; [lia|]. split; vm_compute; reflexivity. Qed.

(** C7, amended.  A negative nonce is not rejected.  [roll_from_seeds]
    renders it with a minus sign in the message and returns a roll in
    [0.00, 99.99] as for any other integer, and [verify_round] with the
    matching commitment returns [True] and prints that roll. *)
Theorem negative_nonce_accepted (S C : string) (N : Z) :
  N < 0 ->
  exists k,
    0 <= k <= 9999 /\
    k = Bytes.int_from_bytes_big
          (firstn 8 (HMAC.digest (Bytes.encode_utf8 S)
                                 (Bytes.encode_utf8 (C ++ ":-" ++ str_int (- N)))))
        mod 10000 /\
    roll_from_seeds S C N = Ok (inject_Z k / 100)%Q /\
    verify_round (compute_commitment S) S C N =
    (match_output S C N (inject_Z k / 100)%Q, Ok true).
Proof.
  intros HN.
  destruct (spec_compute_roll_range S C N) as (k & Hk & Hroll & _).
  exists (spec_V S C N mod 10000).
  split; [pose proof (Z.mod_pos_bound (spec_V S C N) 10000 ltac:(lia)); lia|].
  split.
  - unfold spec_V, spec_digest, spec_message.
    rewrite (str_int_negative N HN). reflexivity.
  - split; [apply roll_from_seeds_eq | apply verify_round_match_eq].
Qed.

Lemma negative_nonce_accepted_witness :
  exists k,
    0 <= k <= 9999 /\
    k = Bytes.int_from_bytes_big
          (firstn 8 (HMAC.digest (Bytes.encode_utf8 "abc123")
                                 (Bytes.encode_utf8 (CLIENT_SEED ++ ":-" ++ str_int (- -1)))))
        mod 10000 /\
    roll_from_seeds "abc123" CLIENT_SEED (-1) = Ok (inject_Z k / 100)%Q /\
    verify_round (compute_commitment "abc123") "abc123" CLIENT_SEED (-1) =
    (match_output "abc123" CLIENT_SEED (-1) (inject_Z k / 100)%Q, Ok true).
Proof. apply (negative_nonce_accepted "abc123" CLIENT_SEED (-1)). lia. Defined.

(** C8. Nonce 0 is accepted: the message ends in the decimal string
    [0], the call returns, and the roll lies in [0.00, 99.99]. *)
Theorem roll_nonce_zero_accepted (S C : string) :
  str_int 0 = "0"%string /\
  exists k,
    0 <= k <= 9999 /\
    k = Bytes.int_from_bytes_big
          (firstn 8 (HMAC.digest (Bytes.encode_utf8 S) (Bytes.encode_utf8 (C ++ ":0"))))
        mod 10000 /\
    roll_from_seeds S C 0 = Ok (inject_Z k / 100)%Q /\
    (0 <= inject_Z k / 100)%Q /\ (inject_Z k / 100 <= 9999 # 100)%Q.
Proof.
  split; [reflexivity|].
  exists (spec_V S C 0 mod 10000).
  assert (Hk : 0 <= spec_V S C 0 mod 10000 <= 9999).
  { pose proof (Z.mod_pos_bound (spec_V S C 0) 10000 ltac:(lia)). lia. }
  destruct (hundredths_range _ Hk) as (_ & H2 & H3).
  repeat split; try lia; try assumption.
  apply roll_from_seeds_eq.
Qed.

Lemma report_1_refused : Report.report_1 = ([], Raise FpdfError).
Proof. vm_compute. reflexivity. Qed.

Lemma main_cli_parsed (a : args) : main_cli (Parsed a) = main a.
Proof. unfold main_cli, parse_args. cbn [bind ret]. now destruct (main a). Qed.

Lemma anu_script_with_server (a : args) (s : string) :
  server_given a = Some s ->
  Report.anu_script (Parsed a) = (fst (main a), Raise FpdfError).
Proof.
  intros E. pose proof (main_returns_with_server a s E) as Hret.
  unfold Report.anu_script. rewrite main_cli_parsed, report_1_refused.
  destruct (main a) as [out r]. cbn [fst snd] in *. subst r.
  cbn [bind]. now rewrite app_nil_r.
Qed.

(** C9, as stated, fails: run with a server seed, the script goes on
    past [main()] into the report code and ends there with an uncaught
    exception, which the interpreter reports on standard error: the
    run's output is not only text lines on standard output. *)
Lemma script_run_ends_in_traceback :
  Report.anu_script
    (Parsed (mkArgs (Some "abc123"%string) 1 CLIENT_SEED PUBLISHED_COMMITMENT)) =
  (fst (main (mkArgs (Some "abc123"%string) 1 CLIENT_SEED PUBLISHED_COMMITMENT)),
   Raise FpdfError) /\
  quiet_end
    (snd (Report.anu_script
            (Parsed (mkArgs (Some "abc123"%string) 1 CLIENT_SEED PUBLISHED_COMMITMENT)))) =
  false.
Proof. split; vm_compute; reflexivity. Qed.

(** C9, amended.  Once the command line has parsed, [main] and
    [verify_round] write only text lines to standard output and no
    file, and a run without a server seed ends in [main] with status 0,
    those lines being all it produced; [--help] prints the help text
    and leaves with status 0, and a rejected command line leaves with
    status 2.  A run with a server seed does not end when [main]
    returns: the report code that follows [main()] runs next and the
    run ends there with an uncaught exception.  No run writes a file. *)
Theorem script_output_effects (o : parse_outcome) :
  (forall a, forallb is_stdout (fst (main a)) = true) /\
  forallb is_stdout (fst (Report.anu_script o)) = true /\
  match o with
  | Usage => Report.anu_script o = ([], Raise (SystemExit 2))
  | Help text => Report.anu_script o = ([Stdout text], Raise (SystemExit 0))
  | Parsed a =>
      match server_given a with
      | None =>
          Report.anu_script o = main a /\ snd (main a) = Raise (SystemExit 0)
      | Some _ =>
          Report.anu_script o = (fst (main a), Raise FpdfError) /\
          snd (main a) = Ok tt /\
          quiet_end (snd (Report.anu_script o)) = false
      end
  end.
Proof.
  split; [exact main_only_prints|].
  destruct o as [a|text|]; [|split; reflexivity|split; reflexivity].
  destruct (server_given a) as [s|] eqn:E.
  - rewrite (anu_script_with_server a s E). cbn [fst snd quiet_end].
    split; [apply main_only_prints|]. split; [reflexivity|].
    split; [exact (main_returns_with_server a s E) | reflexivity].
  - assert (H : Report.anu_script (Parsed a) = main a).
    { unfold Report.anu_script. rewrite main_cli_parsed, (main_no_server a E).
      reflexivity. }
    rewrite H. split; [apply main_only_prints|]. split; [reflexivity|].
    rewrite (main_no_server a E). reflexivity.
Qed.

(** C10. Round trip: for a non-negative nonce, [verify_round] called
    with the commitment derived from the same server seed returns [True]
    and the roll is computed and printed. *)
Theorem verify_round_round_trip (S C : string) (N : Z) :
  0 <= N ->
  snd (verify_round (compute_commitment S) S C N) = Ok true /\
  outcome_present (fst (verify_round (compute_commitment S) S C N)) = true /\
  exists roll,
    roll_from_seeds S C N = Ok roll /\
    In (Stdout (roll_line C N roll)) (fst (verify_round (compute_commitment S) S C N)).
Proof.
  intros _. rewrite verify_round_match_eq. cbn [fst snd].
  split; [reflexivity|]. split; [apply outcome_present_match|].
  exists (spec_compute_roll S C N). split; [apply roll_from_seeds_eq|].
  unfold match_output. simpl. tauto.
Qed.

Lemma verify_round_round_trip_witness :
  snd (verify_round (compute_commitment "abc123") "abc123" CLIENT_SEED 1) = Ok true /\
  outcome_present (fst (verify_round (compute_commitment "abc123") "abc123" CLIENT_SEED 1)) = true /\
  exists roll,
    roll_from_seeds "abc123" CLIENT_SEED 1 = Ok roll /\
    In (Stdout (roll_line CLIENT_SEED 1 roll))
       (fst (verify_round (compute_commitment "abc123") "abc123" CLIENT_SEED 1)).
Proof. apply (verify_round_round_trip "abc123" CLIENT_SEED 1). lia. Defined.

(** * Further properties *)

(** ** Decimal text of an integer *)

Lemma string_of_uint_no_colon (d : Decimal.uint) :
  no_colon (NilEmpty.string_of_uint d) = true.
Proof. induction d; simpl; auto. Qed.

Lemma str_int_no_colon (n : Z) : no_colon (str_int n) = true.
Proof.
  unfold str_int, NilZero.string_of_int, NilZero.string_of_uint.
  destruct (Z.to_int n) as [d|d]; destruct d; try reflexivity;
    try apply (string_of_uint_no_colon (_ : Decimal.uint)).
Qed.

Lemma to_int_not_nil (n : Z) : Z.to_int n <> Decimal.Pos Decimal.Nil /\ Z.to_int n <> Decimal.Neg Decimal.Nil.
Proof.
  destruct n; simpl; split; try discriminate; intros [= H];
    now apply DecimalPos.Unsigned.to_uint_nonnil in H.
Qed.

Lemma str_int_inj (n n' : Z) : str_int n = str_int n' -> n = n'.
Proof.
  unfold str_int. intros H.
  apply (f_equal NilZero.int_of_string) in H.
  destruct (to_int_not_nil n), (to_int_not_nil n').
  rewrite !NilZero.isi in H by assumption.
  injection H as H. now apply DecimalZ.to_int_inj.
Qed.

Lemma no_colon_app_colon (x y : string) : no_colon (x ++ ":" ++ y) = false.
Proof.
  induction x as [|c x IH]; [reflexivity|].
  change (no_colon (String c (x ++ ":" ++ y)) = false).
  unfold no_colon in *. cbn [Hex.all_chars]. rewrite IH.
  apply andb_false_r.
Qed.

Lemma split_at_last_colon (x x' y y' : string) :
  no_colon y = true -> no_colon y' = true ->
  (x ++ ":" ++ y)%string = (x' ++ ":" ++ y')%string -> x = x' /\ y = y'.
Proof.
  intros Hy Hy'. revert x'.
  induction x as [|c x IH]; intros [|c' x'] H; cbn [String.append] in H.
  - injection H as H. auto.
  - injection H as _ H. rewrite H in Hy.
    change (x' ++ String ":" y')%string with (x' ++ ":" ++ y')%string in Hy.
    rewrite no_colon_app_colon in Hy. discriminate.
  - injection H as _ H. rewrite <- H in Hy'.
    change (x ++ String ":" y)%string with (x ++ ":" ++ y)%string in Hy'.
    rewrite no_colon_app_colon in Hy'. discriminate.
  - injection H as -> H. destruct (IH x' H) as [-> ->]. auto.
Qed.

(** X1. [hmac_sha256_hex] returns 64 characters, each one of [0-9a-f],
    for every key and message, keys longer than the 64-byte block
    included. *)
Theorem hmac_sha256_hex_shape (key message : string) :
  String.length (hmac_sha256_hex key message) = 64%nat /\
  Hex.all_chars Hex.is_lower_hex (hmac_sha256_hex key message) = true.
Proof.
  unfold hmac_sha256_hex. split.
  - rewrite hexlify_length, hmac_digest_length. reflexivity.
  - apply hexlify_lower.
Qed.

(** X2. The detour through text in [roll_from_seeds] loses nothing:
    [binascii.unhexlify] applied to what [hexdigest] returned gives back
    the 32 bytes of the HMAC digest, for every key and message, so the
    call at line 50 never fails. *)
Theorem hmac_hex_round_trip (key message : string) :
  Hex.unhexlify (hmac_sha256_hex key message) =
  Some (HMAC.digest (Bytes.encode_utf8 key) (Bytes.encode_utf8 message)) /\
  List.length (HMAC.digest (Bytes.encode_utf8 key) (Bytes.encode_utf8 message)) = 32%nat.
Proof.
  split; [|apply hmac_digest_length].
  unfold hmac_sha256_hex. apply unhexlify_hexlify.
Qed.

(** X3. The HMAC message determines the client seed and the nonce: two
    rounds with the same message have the same client seed and the same
    nonce, even when the client seed itself contains colons. *)
Theorem message_injective (C C' : string) (N N' : Z) :
  (C ++ ":" ++ str_int N)%string = (C' ++ ":" ++ str_int N')%string ->
  C = C' /\ N = N'.
Proof.
  intros H.
  destruct (split_at_last_colon C C' _ _ (str_int_no_colon N) (str_int_no_colon N') H)
    as [HC HN].
  split; [exact HC | now apply str_int_inj].
Qed.

Lemma message_injective_witness : "a:b"%string = "a:b"%string /\ 7 = 7.
Proof. apply (message_injective "a:b" "a:b" 7 7). reflexivity. Defined.


(** X4. A published commitment that is not 64 characters long, or that
    holds a character outside [0-9a-f] (an uppercase digit, a space, a
    trailing newline), is rejected for every server seed: the comparison
    is on the exact text. *)
Theorem malformed_commitment_rejected (p s c : string) (n : Z) :
  String.length p <> 64%nat \/ Hex.all_chars Hex.is_lower_hex p = false ->
  verify_round p s c n = (mismatch_output p s, Ok false).
Proof.
  intros Hp. unfold verify_round. apply verify_round_with_mismatch_eq.
  intros E. subst p. unfold compute_commitment, sha256_hex in Hp.
  rewrite hexlify_length, sha256_digest_length, hexlify_lower in Hp.
  destruct Hp as [Hp|Hp]; [now apply Hp | discriminate].
Qed.

Lemma malformed_commitment_rejected_witness :
  let p := "6CA13D52CA70C883E0F0BB101E425A89E8624DE51DB2D2392593AF6A84118090"%string in
  verify_round p "abc123" CLIENT_SEED 1 = (mismatch_output p "abc123", Ok false).
Proof.
  intros p. apply (malformed_commitment_rejected p "abc123" CLIENT_SEED 1).
  right. vm_compute. reflexivity.
Defined.




(** X6. With a server seed, [main] prints its four banner lines, then
    what [verify_round] prints, then one closing line, which is the
    success line exactly when the commitment matches and the failure
    line otherwise. *)
Theorem main_with_server_output (a : args) (s : string) :
  server_given a = Some s ->
  exists ok,
    snd (verify_round (published a) s (client a) (nonce a)) = Ok ok /\
    (ok = true <-> compute_commitment s = published a) /\
    main a =
    (banner a ++ fst (verify_round (published a) s (client a) (nonce a)) ++
     [Stdout (closing_line ok)], Ok tt).
Proof.
  intros E.
  destruct (string_dec (compute_commitment s) (published a)) as [Hc|Hc].
  - exists true. rewrite (main_match a s E Hc), <- Hc, verify_round_match_eq.
    cbn [fst snd]. repeat split; auto.
  - exists false. rewrite (main_mismatch a s E Hc). unfold verify_round.
    rewrite verify_round_with_mismatch_eq by assumption.
    cbn [fst snd]. repeat split; auto; discriminate.
Qed.

Lemma main_with_server_output_witness :
  let a := mkArgs (Some "abc123"%string) 1 CLIENT_SEED PUBLISHED_COMMITMENT in
  exists ok,
    snd (verify_round (published a) "abc123" (client a) (nonce a)) = Ok ok /\
    (ok = true <-> compute_commitment "abc123" = published a) /\
    main a =
    (banner a ++ fst (verify_round (published a) "abc123" (client a) (nonce a)) ++
     [Stdout (closing_line ok)], Ok tt).
Proof. intros a. apply (main_with_server_output a "abc123"). reflexivity. Defined.


(** X9. The verdict of [verify_round] and its two commitment lines do
    not depend on the client seed or the nonce. *)
Theorem verdict_independent_of_client_and_nonce (p s c c' : string) (n n' : Z) :
  snd (verify_round p s c n) = snd (verify_round p s c' n') /\
  firstn 2 (fst (verify_round p s c n)) = firstn 2 (fst (verify_round p s c' n')).
Proof.
  destruct (string_dec (compute_commitment s) p) as [E|E].
  - subst p. rewrite !verify_round_match_eq. split; reflexivity.
  - unfold verify_round. rewrite !verify_round_with_mismatch_eq by assumption.
    split; reflexivity.
Qed.



Lemma hexlify_inj (bs bs' : list byte) : Hex.hexlify bs = Hex.hexlify bs' -> bs = bs'.
Proof.
  intros H. apply (f_equal Hex.unhexlify) in H.
  rewrite !unhexlify_hexlify in H. now injection H.
Qed.

(** X11. Two server seeds that both verify against the same published
    commitment have the same SHA-256 digest. *)
Theorem commitment_binding (p s1 s2 c1 c2 : string) (n1 n2 : Z) :
  snd (verify_round p s1 c1 n1) = Ok true ->
  snd (verify_round p s2 c2 n2) = Ok true ->
  SHA256.digest (Bytes.encode_utf8 s1) = SHA256.digest (Bytes.encode_utf8 s2).
Proof.
  intros H1 H2.
  assert (E : forall s c n, snd (verify_round p s c n) = Ok true -> compute_commitment s = p).
  { intros s c n H. destruct (string_dec (compute_commitment s) p) as [E|E]; [exact E|].
    unfold verify_round in H. rewrite verify_round_with_mismatch_eq in H by assumption.
    discriminate. }
  apply E in H1, H2. apply hexlify_inj.
  unfold compute_commitment, sha256_hex in H1, H2. congruence.
Qed.

Lemma commitment_binding_witness :
  SHA256.digest (Bytes.encode_utf8 "abc123") = SHA256.digest (Bytes.encode_utf8 "abc123").
Proof.
  apply (commitment_binding (compute_commitment "abc123") "abc123" "abc123"
           CLIENT_SEED CLIENT_SEED 1 2); vm_compute; reflexivity.
Defined.
